(** * Interactive renewable-energy report generator

    A shallow embedding of the impact calculator
    ([calculate_personalized_impact]) and of the report renderer
    ([generate_technical_analysis], [generate_ai_report]) of the class
    [InteractiveRenewableEnergyGenAI], together with the properties that
    the specification states about them.

    Python's [float] is IEEE 754 binary64.  It is modelled by the
    standard library's [spec_float] with precision 53 and maximal
    exponent 1024, whose operations round to nearest, ties to even, as
    the hardware does. *)

From Stdlib Require Import ZArith Bool List String Ascii Lia.
From Stdlib Require Import Floats.SpecFloat DecimalString.
From stdpp Require Import gmap strings.

Local Open Scope Z_scope.

(** ** Python numbers *)

Module Py.

(** The two exceptions that [int(x)] raises on a float. *)
Inductive exn : Type :=
| OverflowError   (* cannot convert float infinity to integer *)
| ValueError.     (* cannot convert float NaN to integer *)

Inductive res (A : Type) : Type :=
| Ok (a : A)
| Raise (e : exn).
Arguments Ok {A} a.
Arguments Raise {A} e.

Abbreviation float := spec_float.

Definition prec : Z := 53.
Definition emax : Z := 1024.

Definition fadd : float -> float -> float := SFadd prec emax.
Definition fsub : float -> float -> float := SFsub prec emax.
Definition fmul : float -> float -> float := SFmul prec emax.
Definition fdiv : float -> float -> float := SFdiv prec emax.

(** [x < y], [x <= y] and [x == y] on floats; all are false on NaN. *)
Definition flt : float -> float -> bool := SFltb.
Definition fle : float -> float -> bool := SFleb.
Definition feq : float -> float -> bool := SFeqb.

(** The float an [int] operand is converted to in mixed arithmetic.
    The conversion is exact below [2^53], which covers every integer
    literal of the program. *)
Definition float_of_int (z : Z) : float := binary_normalize prec emax z 0 false.

(** A decimal literal [n/d] with [d] a power of ten, such as [0.983]
    read as [983/1000].  Numerator and denominator are exact floats and
    division is correctly rounded, so the result is the float nearest
    to the decimal, which is what the Python parser produces. *)
Definition lit (n : Z) (d : positive) : float :=
  fdiv (float_of_int n) (float_of_int (Zpos d)).

(** [min(a, b)] and [max(a, b)] keep the first argument unless the
    second is strictly smaller (resp. larger). *)
Definition fmin (a b : float) : float := if flt b a then b else a.
Definition imax (a b : Z) : Z := if a <? b then b else a.

(** A value that is either an [int] or a [float], as the result of
    [max(18, x)] with [x] a float. *)
Inductive num : Type :=
| Int (z : Z)
| Float (x : float).

Definition max_int_float (a : Z) (b : float) : num :=
  if flt (float_of_int a) b then Float b else Int a.

Definition float_of_num (v : num) : float :=
  match v with
  | Int z => float_of_int z
  | Float x => x
  end.

(** [int(x)]: truncation toward zero; raises on infinities and NaN. *)
Definition int_of_float (x : float) : res Z :=
  match x with
  | S754_zero _ => Ok 0
  | S754_finite s m e =>
      Ok (cond_Zopp s (if 0 <=? e then Zpos m * 2 ^ e
                       else Zpos m / 2 ^ (- e)))
  | S754_infinity _ => Raise OverflowError
  | S754_nan => Raise ValueError
  end.

(** The mathematical floor of a float that denotes a real number, and
    [0] elsewhere. *)
Definition floor (x : float) : Z :=
  match x with
  | S754_finite s m e =>
      if 0 <=? e then cond_Zopp s (Zpos m) * 2 ^ e
      else cond_Zopp s (Zpos m) / 2 ^ (- e)
  | _ => 0
  end.

(** Floats that denote a real number. *)
Definition is_real (x : float) : bool :=
  match x with
  | S754_zero _ | S754_finite _ _ _ => true
  | _ => false
  end.

(** [0.0 <= x] *)
Definition nonneg (x : float) : bool := fle (S754_zero false) x.

(** The float is a whole number. *)
Definition is_integer (x : float) : bool :=
  match x with
  | S754_zero _ => true
  | S754_finite _ m e => (0 <=? e) || (Zpos m mod 2 ^ (- e) =? 0)
  | _ => false
  end.

End Py.

Import Py.

(** Python arithmetic on floats, written infix. *)
Declare Scope py_scope.
Delimit Scope py_scope with py.
Infix "+" := fadd : py_scope.
Infix "-" := fsub : py_scope.
Infix "*" := fmul : py_scope.
Infix "/" := fdiv : py_scope.

(** ** The instance and its state *)

(** [self.model_metrics], a dictionary with a fixed set of keys. *)
Record ModelMetrics : Type := {
  window_size : Z;
  architecture : string;
  pv_mae : float;
  pv_rmse : float;
  pv_r2 : float;
  wind_mae : float;
  wind_rmse : float;
  wind_r2 : float
}.

Record Template : Type := {
  description : string;
  typical_ghi_range : string;
  typical_wind_speed : string;
  energy_pattern : string
}.

(** The attributes of an [InteractiveRenewableEnergyGenAI] object.  The
    templates keep the insertion order of the dictionary. *)
Record GenAI : Type := {
  model_metrics : ModelMetrics;
  community_templates : list (string * Template)
}.

Definition setup_community_templates : list (string * Template) :=
  [ ("rural_agricultural",
     {| description := "Rural areas with agricultural focus (like your dataset)";
        typical_ghi_range := "0-800 W/m²";
        typical_wind_speed := "2-6 m/s";
        energy_pattern := "Seasonal variation with agriculture cycles" |});
    ("urban_mixed",
     {| description := "Urban areas with mixed energy demand";
        typical_ghi_range := "0-900 W/m²";
        typical_wind_speed := "1-4 m/s";
        energy_pattern := "Consistent high demand with peak hours" |});
    ("industrial_zone",
     {| description := "Industrial areas with high energy consumption";
        typical_ghi_range := "0-850 W/m²";
        typical_wind_speed := "3-7 m/s";
        energy_pattern := "24/7 high baseline demand" |});
    ("coastal_area",
     {| description := "Coastal regions with good wind potential";
        typical_ghi_range := "0-950 W/m²";
        typical_wind_speed := "4-10 m/s";
        energy_pattern := "High wind potential, moderate solar" |}) ].

(** [__init__]. *)
Definition init : GenAI := {|
  model_metrics := {|
    window_size := 48;
    architecture := "CNN: tanh | LSTM: sigmoid/sigmoid | Dense: elu";
    pv_mae := lit 367709 1000;
    pv_rmse := lit 547014 1000;
    pv_r2 := lit 983 1000;
    wind_mae := lit 178476 1000;
    wind_rmse := lit 221862 1000;
    wind_r2 := lit 965 1000 |};
  community_templates := setup_community_templates
|}.

(** Methods run against the instance and may raise: a state and error
    monad over [GenAI]. *)
Definition M (A : Type) : Type := GenAI -> res A * GenAI.

Definition ret {A : Type} (a : A) : M A := fun self => (Ok a, self).

Definition bind {A B : Type} (c : M A) (k : A -> M B) : M B :=
  fun self =>
    match c self with
    | (Ok a, self') => k a self'
    | (Raise e, self') => (Raise e, self')
    end.

Definition lift {A : Type} (r : res A) : M A := fun self => (r, self).

(** [self.model_metrics[key]] for one of the keys of [ModelMetrics]. *)
Definition self_model_metrics {A : Type} (key : ModelMetrics -> A) : M A :=
  fun self => (Ok (key (model_metrics self)), self).

Notation "'do' x <- c ; k" := (bind c (fun x => k))
  (at level 10, x name, c at level 100, k at level 200).

(** ** Data model *)

(** [community_data], the dictionary that [get_user_input] returns. *)
Record CommunityProfile : Type := {
  name : string;
  region : string;
  type : string;
  population : string;
  avg_demand : float;
  peak_demand : float;
  avg_ghi : float;
  avg_wind_speed : float;
  season_pattern : string;
  main_challenge : string;
  special_needs : string
}.

(** [personalized], the dictionary that the calculator returns. *)
Record ImpactMetrics : Type := {
  cost_reduction_percent : float;
  monthly_savings_inr : float;
  reliability_improvement : float;
  renewable_penetration : float;
  peak_reduction : float;
  co2_reduction_tons : float;
  diesel_displacement_liters : float;
  jobs_created : Z;
  payback_months : num;
  prediction_accuracy_pv : float;
  prediction_accuracy_wind : float;
  prediction_error_pv : float;
  prediction_error_wind : float
}.

(** ** Impact calculator *)

Definition type_factors : gmap string float :=
  <["rural_agricultural" := lit 10 10]>
  (<["urban_mixed" := lit 115 100]>
  (<["industrial_zone" := lit 125 100]>
  (<["coastal_area" := lit 11 10]> ∅))).

(** [type_factors.get(community_data['type'], 1.0)] *)
Definition adjustment_of (community_data : CommunityProfile) : float :=
  default (lit 10 10) (type_factors !! type community_data).

(** [min(1.5, community_data['avg_ghi'] / 400)] *)
Definition ghi_factor_of (community_data : CommunityProfile) : float :=
  fmin (lit 15 10) (avg_ghi community_data / float_of_int 400)%py.

(** [min(1.8, community_data['avg_wind_speed'] / 3.0)] *)
Definition wind_factor_of (community_data : CommunityProfile) : float :=
  fmin (lit 18 10) (avg_wind_speed community_data / lit 30 10)%py.

Definition calculate_personalized_impact (community_data : CommunityProfile)
  : M ImpactMetrics :=
  do base_pv_efficiency <- self_model_metrics pv_r2;
  do base_wind_efficiency <- self_model_metrics wind_r2;
  let adjustment := adjustment_of community_data in
  let ghi_factor := ghi_factor_of community_data in
  let wind_factor := wind_factor_of community_data in
  do jobs <- lift (int_of_float (avg_demand community_data / float_of_int 5000)%py);
  do pv_err <- self_model_metrics pv_mae;
  do wind_err <- self_model_metrics wind_mae;
  ret {|
    cost_reduction_percent :=
      ((base_pv_efficiency * float_of_int 25
        + base_wind_efficiency * float_of_int 15) * adjustment)%py;
    monthly_savings_inr :=
      (avg_demand community_data * lit 12 100 * adjustment)%py;
    reliability_improvement :=
      ((base_pv_efficiency + base_wind_efficiency) * float_of_int 45)%py;
    renewable_penetration :=
      ((base_pv_efficiency * float_of_int 40
        + base_wind_efficiency * float_of_int 30) * ghi_factor)%py;
    peak_reduction :=
      (base_pv_efficiency * float_of_int 20 * adjustment)%py;
    co2_reduction_tons :=
      (avg_demand community_data * lit 8 10 * adjustment)%py;
    diesel_displacement_liters :=
      (avg_demand community_data * float_of_int 15 * adjustment)%py;
    jobs_created := imax 3 jobs;
    payback_months :=
      max_int_float 18 (float_of_int 36 - base_pv_efficiency * float_of_int 12)%py;
    prediction_accuracy_pv := base_pv_efficiency;
    prediction_accuracy_wind := base_wind_efficiency;
    prediction_error_pv := pv_err;
    prediction_error_wind := wind_err
  |}.

Definition default_profile : CommunityProfile := {|
  name := "Sample Community";
  region := "Unknown Region";
  type := "rural_agricultural";
  population := "10,000";
  avg_demand := float_of_int 22000;
  peak_demand := float_of_int 35000;
  avg_ghi := float_of_int 400;
  avg_wind_speed := lit 30 10;
  season_pattern := "Balanced across seasons";
  main_challenge := "Unreliable grid supply";
  special_needs := "General community needs"
|}.

(** ** Format specifications *)

Definition nl : string := String "010"%char EmptyString.

Definition str_of_N (n : N) : string := NilZero.string_of_uint (N.to_uint n).

(** [str(z)] for an [int]. *)
Definition str_of_int (z : Z) : string :=
  match z with
  | Zneg p => "-" +:+ str_of_N (Npos p)
  | _ => str_of_N (Z.to_N z)
  end.

(** [s.replace(a, b)] for one-character [a] and [b]. *)
Fixpoint replace_char (a b : ascii) (s : string) : string :=
  match s with
  | EmptyString => EmptyString
  | String c rest =>
      String (if Ascii.eqb c a then b else c) (replace_char a b rest)
  end.

(** [c * n] for a string [c]. *)
Fixpoint repeat_str (c : string) (n : nat) : string :=
  match n with
  | O => EmptyString
  | S n' => c +:+ repeat_str c n'
  end.

(** The integer nearest to [n / d] for [d > 0], ties to the even one. *)
Definition round_half_even (n d : Z) : Z :=
  let q := n / d in
  match 2 * (n mod d) ?= d with
  | Lt => q
  | Gt => q + 1
  | Eq => if Z.even q then q else q + 1
  end.

(** [m * 2^e * 10^k] rounded to an integer: the digits that the fixed
    notation with [k] decimals prints for the float [m * 2^e]. *)
Definition scaled_magnitude (k : nat) (m : positive) (e : Z) : Z :=
  if 0 <=? e then Zpos m * 2 ^ e * 10 ^ Z.of_nat k
  else round_half_even (Zpos m * 10 ^ Z.of_nat k) (2 ^ (- e)).

(** The [,] option: a comma before every group of three digits. *)
Fixpoint group_thousands (digits : string) : string :=
  match digits with
  | EmptyString => EmptyString
  | String c rest =>
      let n := String.length rest in
      String c (if negb (n =? 0)%nat && (n mod 3 =? 0)%nat
                then "," +:+ group_thousands rest
                else group_thousands rest)
  end.

Definition pad_zeros (k : nat) (s : string) : string :=
  repeat_str "0" (k - String.length s) +:+ s.

Definition digits_fixed (grouping : bool) (k : nat) (n : Z) : string :=
  let int_part := str_of_N (Z.to_N (n / 10 ^ Z.of_nat k)) in
  (if grouping then group_thousands int_part else int_part)
  +:+ (if (k =? 0)%nat then ""
      else "." +:+ pad_zeros k (str_of_N (Z.to_N (n mod 10 ^ Z.of_nat k)))).

Definition sign_str (s : bool) : string := if s then "-" else "".

(** [format(x, '.kf')] and, with [grouping], [format(x, ',.kf')]. *)
Definition format_fixed (grouping : bool) (k : nat) (x : float) : string :=
  match x with
  | S754_nan => "nan"
  | S754_infinity s => sign_str s +:+ "inf"
  | S754_zero s => sign_str s +:+ digits_fixed grouping k 0
  | S754_finite s m e =>
      sign_str s +:+ digits_fixed grouping k (scaled_magnitude k m e)
  end.

(** [format(x, '.k%')]: the float is multiplied by a hundred, printed in
    fixed notation and followed by a percent sign. *)
Definition format_percent (k : nat) (x : float) : string :=
  format_fixed false k (x * float_of_int 100)%py +:+ "%".

(** [format(v, '.kf')] for an [int] or a [float]; an [int] is converted
    to a float first. *)
Definition format_fixed_num (k : nat) (v : num) : string :=
  format_fixed false k (float_of_num v).

(** ** Report renderer *)

(** [''.join(parts)]: an f-string is the concatenation of its literal
    pieces and of its formatted fields. *)
Definition str_join (parts : list string) : string :=
  fold_right String.append EmptyString parts.

(** [needle in hay] on strings. *)
Fixpoint str_in (needle hay : string) : bool :=
  String.prefix needle hay
  || match hay with
     | EmptyString => false
     | String _ rest => str_in needle rest
     end.

Section Render.

(** Three builtins of the Python runtime that the renderer calls:
    [str(x)] for a float, [s.upper()] and [s.title()]. *)
Variable str_of_float : float -> string.
Variable str_upper : string -> string.
Variable str_title : string -> string.

(** The pieces of the f-string of [generate_technical_analysis]. *)
Definition technical_analysis_parts
  (community_data : CommunityProfile) (personalized_metrics : ImpactMetrics)
  : list string :=
  [
    nl;
    "🔧 TECHNICAL ANALYSIS (Based on Your CNN+LSTM Model)"; nl;
    nl;
    "MODEL PERFORMANCE IN "; str_upper (name community_data); ":"; nl;
    "• Solar Prediction Accuracy: ";
      format_percent 1 (prediction_accuracy_pv personalized_metrics); " (R² = ";
      format_fixed false 3 (prediction_accuracy_pv personalized_metrics); ")"; nl;
    "• Wind Prediction Accuracy: ";
      format_percent 1 (prediction_accuracy_wind personalized_metrics); " (R² = ";
      format_fixed false 3 (prediction_accuracy_wind personalized_metrics); ")"; nl;
    "• Prediction Error Margin: ±";
      format_fixed false 0 (prediction_error_pv personalized_metrics);
      " units (PV), ±";
      format_fixed false 0 (prediction_error_wind personalized_metrics);
      " units (Wind)"; nl;
    nl;
    "DATA FEATURES UTILIZED (From Your Database):"; nl;
    "✓ Time-series patterns (48-hour window)"; nl;
    "✓ Seasonal variations (Season: "; season_pattern community_data; ")"; nl;
    "✓ Solar irradiance (GHI: "; str_of_float (avg_ghi community_data); " W/m²)"; nl;
    "✓ Wind patterns (Wind speed: "; str_of_float (avg_wind_speed community_data);
      " m/s)"; nl;
    "✓ Temperature and humidity correlations"; nl;
    "✓ Historical production patterns"; nl;
    nl;
    "OPTIMIZATION OPPORTUNITIES:"; nl;
    "• Load shifting potential: ";
      format_fixed false 0 (peak_reduction personalized_metrics);
      "% peak demand reduction"; nl;
    "• Renewable integration: ";
      format_fixed false 0 (renewable_penetration personalized_metrics);
      "% of total demand"; nl;
    "• Storage optimization: Based on 48-hour prediction window"; nl;
    "• Maintenance scheduling: Predictive alerts for system upkeep"; nl
  ].

Definition generate_technical_analysis
  (community_data : CommunityProfile) (personalized_metrics : ImpactMetrics)
  : M string :=
  let analysis :=
    str_join (technical_analysis_parts community_data personalized_metrics) in
  ret analysis.

(** The pieces of the f-string of [generate_ai_report]: [analysis] is
    the text returned by [generate_technical_analysis], [self_pv_r2] and
    [self_wind_r2] are the two accuracies read from [self.model_metrics]
    and [now] is the text of
    [datetime.now().strftime('%Y-%m-%d %H:%M')]. *)
Definition ai_report_parts
  (community_data : CommunityProfile) (personalized_metrics : ImpactMetrics)
  (analysis : string) (self_pv_r2 self_wind_r2 : float) (now : string)
  : list string :=
  [
    nl;
    "🤖 AI-POWERED RENEWABLE ENERGY IMPACT REPORT"; nl;
    repeat_str "=" 70; nl;
    "Powered by Hybrid CNN+LSTM Model (R²: 0.983 PV, 0.965 Wind)"; nl;
    nl;
    "COMMUNITY: "; name community_data; nl;
    "REGION: "; region community_data; nl;
    "POPULATION: "; population community_data; nl;
    "COMMUNITY TYPE: "; str_title (replace_char "_" " " (type community_data)); nl;
    "ENERGY PROFILE: "; season_pattern community_data; nl;
    nl;
    "📊 EXECUTIVE SUMMARY"; nl;
    nl;
    "Our AI model analysis shows exceptional potential for "; name community_data;
      ":"; nl;
    nl;
    "• 💰 ECONOMIC: ";
      format_fixed false 0 (cost_reduction_percent personalized_metrics);
      "% cost reduction (₹";
      format_fixed true 0 (monthly_savings_inr personalized_metrics); "/month)"; nl;
    "• 🌱 ENVIRONMENTAL: ";
      format_fixed true 0 (co2_reduction_tons personalized_metrics);
      " tons CO₂ reduction annually"; nl;
    "• ⚡ RELIABILITY: ";
      format_fixed false 0 (reliability_improvement personalized_metrics);
      "% improvement in energy access"; nl;
    "• 👥 SOCIAL: "; str_of_int (jobs_created personalized_metrics);
      " local green jobs created"; nl;
    nl;
    "🎯 ENERGY PROFILE ANALYSIS"; nl;
    nl;
    "Current Situation:"; nl;
    "• Average Demand: "; format_fixed true 0 (avg_demand community_data); " kW"; nl;
    "• Peak Demand: "; format_fixed true 0 (peak_demand community_data); " kW  "; nl;
    "• Solar Potential: "; str_of_float (avg_ghi community_data); " W/m² GHI"; nl;
    "• Wind Potential: "; str_of_float (avg_wind_speed community_data); " m/s"; nl;
    "• Main Challenge: "; main_challenge community_data; nl;
    nl;
    "AI Model Confidence:"; nl;
    "• Solar Prediction: ";
      format_percent 1 (prediction_accuracy_pv personalized_metrics); " accuracy"; nl;
    "• Wind Prediction: ";
      format_percent 1 (prediction_accuracy_wind personalized_metrics); " accuracy";
      nl;
    "• Combined Reliability: ";
      format_percent 1 ((prediction_accuracy_pv personalized_metrics + prediction_accuracy_wind personalized_metrics) / float_of_int 2)%py;
      nl;
    nl;
    "🚀 OPTIMIZATION STRATEGY"; nl;
    nl;
    "Phase 1: Smart Forecasting (Months 1-3)"; nl;
    "• Deploy 48-hour ahead predictions using CNN+LSTM"; nl;
    "• Integrate with existing grid infrastructure"; nl;
    "• Train local operators on AI system"; nl;
    nl;
    "Phase 2: Renewable Integration (Months 4-8)"; nl;
    "• Achieve "; format_fixed false 0 (renewable_penetration personalized_metrics);
      "% renewable penetration"; nl;
    "• Implement peak shaving strategies"; nl;
    "• Establish maintenance protocols"; nl;
    nl;
    "Phase 3: Community Empowerment (Months 9-12)"; nl;
    "• Local ownership transition"; nl;
    "• Performance monitoring dashboard"; nl;
    "• Expansion planning"; nl;
    nl;
    analysis; nl;
    nl;
    "📈 QUANTIFIED BENEFITS"; nl;
    nl;
    "IMMEDIATE (3-6 months):"; nl;
    "• Energy cost reduction: ";
      format_fixed false 0 (cost_reduction_percent personalized_metrics); "%"; nl;
    "• Grid reliability: ";
      format_fixed false 0 (reliability_improvement personalized_metrics);
      "% improvement  "; nl;
    "• Diesel displacement: ";
      format_fixed true 0 (diesel_displacement_liters personalized_metrics);
      " liters/month"; nl;
    nl;
    "LONG-TERM (1-2 years):"; nl;
    "• CO₂ reduction: ";
      format_fixed true 0 (co2_reduction_tons personalized_metrics); " tons annually";
      nl;
    "• Job creation: "; str_of_int (jobs_created personalized_metrics);
      " sustainable local jobs"; nl;
    "• Energy independence: ";
      format_fixed false 0 (renewable_penetration personalized_metrics);
      "% self-sufficiency"; nl;
    nl;
    "💡 UNIQUE VALUE PROPOSITION"; nl;
    nl;
    "YOUR AI MODEL EXCELLENCE:"; nl;
    "• Exceptional accuracy (98.3% for solar, 96.5% for wind)"; nl;
    "• 48-hour prediction window for optimal planning"; nl;
    "• Hybrid CNN-LSTM architecture for spatiotemporal patterns"; nl;
    "• Proven performance on your dataset structure"; nl;
    nl;
    "🎯 RECOMMENDATIONS FOR "; str_upper (name community_data); nl;
    nl;
    "1. TECHNICAL DEPLOYMENT:"; nl;
    "   • Leverage 48-hour prediction window for energy scheduling"; nl;
    "   • Use seasonal patterns from your data for capacity planning"; nl;
    "   • Implement real-time monitoring based on GHI and wind speed"; nl;
    nl;
    "2. ECONOMIC MODEL:"; nl;
    "   • Payback period: "; format_fixed_num 0 (payback_months personalized_metrics);
      " months"; nl;
    "   • ROI: ";
      format_fixed false 0 (cost_reduction_percent personalized_metrics * float_of_int 3)%py;
      "% over 3 years"; nl;
    "   • Operational savings: ₹";
      format_fixed true 0 (monthly_savings_inr personalized_metrics); "/month"; nl;
    nl;
    "3. COMMUNITY ENGAGEMENT:"; nl;
    "   • Train "; str_of_int (jobs_created personalized_metrics);
      " local technicians"; nl;
    "   • Establish community energy committee"; nl;
    "   • Develop educational programs on renewable energy"; nl;
    nl;
    "🌍 SUSTAINABILITY IMPACT"; nl;
    nl;
    "ALIGNMENT WITH SDGs:"; nl;
    "✓ SDG 7: Affordable & Clean Energy (";
      format_fixed false 0 (renewable_penetration personalized_metrics);
      "% renewable)"; nl;
    "✓ SDG 8: Decent Work ("; str_of_int (jobs_created personalized_metrics);
      " green jobs)  "; nl;
    "✓ SDG 13: Climate Action (";
      format_fixed true 0 (co2_reduction_tons personalized_metrics);
      " tons CO₂ reduction)"; nl;
    nl;
    "SCALABILITY POTENTIAL:"; nl;
    "• Template for similar "; replace_char "_" " " (type community_data);
      " communities"; nl;
    "• Modular architecture for different regions"; nl;
    "• Data-driven optimization continuous learning"; nl;
    nl;
    "---"; nl;
    "AI Model: Hybrid CNN-LSTM | Accuracy: PV "; format_percent 1 self_pv_r2;
      ", Wind "; format_percent 1 self_wind_r2; nl;
    "Generated for: "; name community_data; " | Date: "; now; nl;
    "Data Features: Time, Season, DHI, DNI, GHI, Wind_speed, Humidity, Temperature";
      nl;
    repeat_str "=" 70; nl
  ].

Definition generate_ai_report
  (community_data : CommunityProfile) (personalized_metrics : ImpactMetrics)
  (now : string) : M string :=
  do analysis <- generate_technical_analysis community_data personalized_metrics;
  do self_pv_r2 <- self_model_metrics pv_r2;
  do self_wind_r2 <- self_model_metrics wind_r2;
  let report :=
    str_join (ai_report_parts community_data personalized_metrics
                analysis self_pv_r2 self_wind_r2 now) in
  ret report.

End Render.

(** ** The builtins on ASCII text

    Instances of the three builtins for running the renderer on
    concrete inputs.  They agree with Python on ASCII strings and, for
    [repr_whole], on floats with at most one decimal. *)

Definition is_lower (c : ascii) : bool :=
  let n := nat_of_ascii c in (97 <=? n)%nat && (n <=? 122)%nat.

Definition is_upper (c : ascii) : bool :=
  let n := nat_of_ascii c in (65 <=? n)%nat && (n <=? 90)%nat.

Definition to_upper (c : ascii) : ascii :=
  if is_lower c then ascii_of_nat (nat_of_ascii c - 32) else c.

Definition to_lower (c : ascii) : ascii :=
  if is_upper c then ascii_of_nat (nat_of_ascii c + 32) else c.

Fixpoint ascii_upper (s : string) : string :=
  match s with
  | EmptyString => EmptyString
  | String c rest => String (to_upper c) (ascii_upper rest)
  end.

(** [in_word] tells whether the previous character was a letter. *)
Fixpoint ascii_title_from (in_word : bool) (s : string) : string :=
  match s with
  | EmptyString => EmptyString
  | String c rest =>
      let letter := is_lower c || is_upper c in
      String (if letter then (if in_word then to_lower c else to_upper c) else c)
             (ascii_title_from letter rest)
  end.

Definition ascii_title (s : string) : string := ascii_title_from false s.

Definition repr_whole (x : float) : string := format_fixed false 1 x.

(** ** Profiles and predicates used in the statements *)

(** The average demand is a binary64 float that denotes a real number:
    neither an infinity nor NaN. *)
Definition demand_is_real (community_data : CommunityProfile) : bool :=
  valid_binary prec emax (avg_demand community_data)
  && is_real (avg_demand community_data).

(** A community type that is not a key of [type_factors]. *)
Definition unrecognised (t : string) : Prop :=
  t <> "rural_agricultural" /\ t <> "urban_mixed"
  /\ t <> "industrial_zone" /\ t <> "coastal_area".

(** Profiles that differ from a given one in a single field. *)
Definition with_type (t : string) (p : CommunityProfile) : CommunityProfile :=
  {| name := name p; region := region p; type := t;
     population := population p; avg_demand := avg_demand p;
     peak_demand := peak_demand p; avg_ghi := avg_ghi p;
     avg_wind_speed := avg_wind_speed p; season_pattern := season_pattern p;
     main_challenge := main_challenge p; special_needs := special_needs p |}.

Definition with_avg_demand (x : float) (p : CommunityProfile) : CommunityProfile :=
  {| name := name p; region := region p; type := type p;
     population := population p; avg_demand := x;
     peak_demand := peak_demand p; avg_ghi := avg_ghi p;
     avg_wind_speed := avg_wind_speed p; season_pattern := season_pattern p;
     main_challenge := main_challenge p; special_needs := special_needs p |}.

Definition with_avg_ghi (x : float) (p : CommunityProfile) : CommunityProfile :=
  {| name := name p; region := region p; type := type p;
     population := population p; avg_demand := avg_demand p;
     peak_demand := peak_demand p; avg_ghi := x;
     avg_wind_speed := avg_wind_speed p; season_pattern := season_pattern p;
     main_challenge := main_challenge p; special_needs := special_needs p |}.

Definition with_avg_wind_speed (x : float) (p : CommunityProfile) : CommunityProfile :=
  {| name := name p; region := region p; type := type p;
     population := population p; avg_demand := avg_demand p;
     peak_demand := peak_demand p; avg_ghi := avg_ghi p;
     avg_wind_speed := x; season_pattern := season_pattern p;
     main_challenge := main_challenge p; special_needs := special_needs p |}.

(** [needle] occurs in [hay]: the specification of [str_in]. *)
Definition occurs (needle hay : string) : Prop :=
  exists pre post, hay = pre +:+ needle +:+ post.

(** Proof search: looks a piece up in the list of pieces of an f-string. *)
Ltac find_piece := simpl In; repeat (first [left; reflexivity | right]).

(** * Properties *)

(** ** The model on concrete inputs *)

Example lit_0_983 : lit 983 1000 = S754_finite false 8854076867410395 (-53).
Proof. reflexivity. Qed.

Example lit_1_0 : lit 10 10 = float_of_int 1.
Proof. reflexivity. Qed.

Example int_of_float_4_4 : int_of_float (lit 44 10) = Ok 4.
Proof. reflexivity. Qed.

Example int_of_float_neg : int_of_float (lit (-44) 10) = Ok (-4).
Proof. reflexivity. Qed.

Example floor_neg : floor (lit (-44) 10) = -5.
Proof. reflexivity. Qed.

Example format_cost : format_fixed false 0 (lit 3905 100) = "39".
Proof. reflexivity. Qed.

Example format_savings : format_fixed true 0 (float_of_int 2640) = "2,640".
Proof. reflexivity. Qed.

Example format_diesel : format_fixed true 0 (float_of_int 1234567) = "1,234,567".
Proof. reflexivity. Qed.

Example format_r2 : format_fixed false 3 (lit 983 1000) = "0.983".
Proof. reflexivity. Qed.

Example format_accuracy : format_percent 1 (lit 983 1000) = "98.3%".
Proof. reflexivity. Qed.

Example format_half_even : format_fixed false 0 (lit 25 10) = "2".
Proof. reflexivity. Qed.

Example format_small_fraction : format_fixed false 3 (lit 5 1000) = "0.005".
Proof. reflexivity. Qed.

Example format_negative_zero : format_fixed false 0 (lit (-4) 10) = "-0".
Proof. reflexivity. Qed.

Example format_pv_mae : format_fixed false 0 (lit 367709 1000) = "368".
Proof. reflexivity. Qed.

(** ** Rounding keeps the sign and the range *)

Lemma shr_1_m (mrs : shr_record) :
  0 <= shr_m mrs -> shr_m (shr_1 mrs) = shr_m mrs / 2.
Proof.
  destruct mrs as [m r s]; simpl; intros Hm.
  destruct m as [|p|p]; [reflexivity| |lia].
  destruct p as [p|p|]; simpl shr_m.
  - apply Z.div_unique with (r := 1); lia.
  - apply Z.div_unique with (r := 0); lia.
  - reflexivity.
Qed.

Lemma pow2_xO (p : positive) : 2 ^ Zpos p~0 = 2 ^ Zpos p * 2 ^ Zpos p.
Proof.
  replace (Zpos p~0) with (Zpos p + Zpos p) by lia.
  apply Z.pow_add_r; lia.
Qed.

Lemma pow2_xI (p : positive) : 2 ^ Zpos p~1 = 2 * (2 ^ Zpos p * 2 ^ Zpos p).
Proof.
  replace (Zpos p~1) with (1 + (Zpos p + Zpos p)) by lia.
  rewrite !Z.pow_add_r by lia. reflexivity.
Qed.

Lemma iter_shr_1_m (p : positive) : forall mrs : shr_record,
  0 <= shr_m mrs ->
  shr_m (SpecFloat.iter_pos shr_1 p mrs) = shr_m mrs / 2 ^ Zpos p.
Proof.
  assert (Hstep : forall mrs, 0 <= shr_m mrs -> 0 <= shr_m (shr_1 mrs)).
  { intros mrs H. rewrite shr_1_m by assumption. apply Z.div_pos; lia. }
  assert (Hpow : forall q : positive, 0 < 2 ^ Zpos q) by (intros; apply Z.pow_pos_nonneg; lia).
  induction p as [p IH|p IH|]; intros mrs Hm; simpl SpecFloat.iter_pos.
  - assert (H1 : 0 <= shr_m (SpecFloat.iter_pos shr_1 p (shr_1 mrs))).
    { rewrite IH by auto. apply Z.div_pos; auto. }
    rewrite IH, IH, shr_1_m by auto.
    pose proof (Hpow p).
    rewrite !Z.div_div by lia. rewrite pow2_xI. reflexivity.
  - assert (H1 : 0 <= shr_m (SpecFloat.iter_pos shr_1 p mrs)).
    { rewrite IH by auto. apply Z.div_pos; auto. }
    rewrite IH, IH by auto.
    pose proof (Hpow p).
    rewrite Z.div_div by lia. rewrite pow2_xO. reflexivity.
  - rewrite shr_1_m by assumption. reflexivity.
Qed.

Lemma digits2_pos_size (p : positive) : digits2_pos p = Pos.size p.
Proof. induction p; simpl; congruence. Qed.

Lemma Zdigits2_le (z k : Z) : 0 <= z < 2 ^ k -> 0 <= k -> Zdigits2 z <= k.
Proof.
  intros [Hz Hlt] Hk. destruct z as [|p|p]; simpl; [assumption| |lia].
  rewrite digits2_pos_size.
  pose proof (Pos.size_le p) as Hle.
  apply Pos2Z.pos_le_pos in Hle. rewrite Pos2Z.inj_pow in Hle.
  assert (Hs : 2 ^ Zpos (Pos.size p) < 2 ^ (k + 1)).
  { rewrite Z.pow_add_r by lia. change (Zpos p~0) with (2 * Zpos p) in Hle.
    change (Z.pos 2) with 2 in Hle. lia. }
  apply Z.pow_lt_mono_r_iff in Hs; lia.
Qed.

Lemma fexp_unfold (e : Z) : fexp prec emax e = Z.max (e - 53) (-1074).
Proof. reflexivity. Qed.

Lemma shr_record_of_loc_m (m : Z) (l : location) :
  shr_m (shr_record_of_loc m l) = m.
Proof. destruct l as [|[]]; reflexivity. Qed.

Lemma shr_fexp_spec (m e : Z) (l : location) :
  0 <= m ->
  let n := fexp prec emax (Zdigits2 m + e) - e in
  (0 < n -> shr_m (fst (shr_fexp prec emax m e l)) = m / 2 ^ n
            /\ snd (shr_fexp prec emax m e l) = e + n)
  /\ (n <= 0 -> shr_m (fst (shr_fexp prec emax m e l)) = m
               /\ snd (shr_fexp prec emax m e l) = e).
Proof.
  intros Hm n. unfold shr_fexp. fold n. unfold shr.
  destruct n as [|p|p]; split; intros Hn; try lia; simpl fst; simpl snd.
  - now rewrite shr_record_of_loc_m.
  - rewrite iter_shr_1_m by (now rewrite shr_record_of_loc_m).
    now rewrite shr_record_of_loc_m.
  - now rewrite shr_record_of_loc_m.
Qed.

Lemma round_nearest_even_bounds (m : Z) (l : location) :
  m <= round_nearest_even m l <= m + 1.
Proof. destruct l as [|[]]; simpl; try destruct (Z.even m); lia. Qed.

(** What [binary_round_aux] returns on a non-negative mantissa: never
    NaN, always with the requested sign, and a real number when the
    value is below [2^1023]. *)
Lemma binary_round_aux_shape (sx : bool) (mx ex : Z) (lx : location) :
  0 <= mx ->
  exists m e, 0 <= m
    /\ binary_round_aux prec emax sx mx ex lx
       = match m with
         | Z0 => S754_zero sx
         | Zpos p => if e <=? emax - prec then S754_finite sx p e
                     else S754_infinity sx
         | Zneg _ => S754_nan
         end
    /\ (mx < 2 ^ (1023 - ex) -> ex <= 971 -> e <= 971).
Proof.
  intros Hmx. unfold binary_round_aux.
  pose proof (shr_fexp_spec mx ex lx Hmx) as H1. cbv zeta in H1.
  destruct (shr_fexp prec emax mx ex lx) as [mrs' e']. simpl fst in H1; simpl snd in H1.
  set (m' := shr_m mrs') in *.
  pose proof (round_nearest_even_bounds m' (loc_of_shr_record mrs')) as Hr.
  set (m1 := round_nearest_even m' (loc_of_shr_record mrs')) in *.
  assert (Hm' : 0 <= m').
  { destruct H1 as [Ha Hb].
    destruct (Z_lt_le_dec 0 (fexp prec emax (Zdigits2 mx + ex) - ex)) as [Hn|Hn].
    - destruct (Ha Hn) as [-> _]. apply Z.div_pos; [assumption|].
      apply Z.pow_pos_nonneg; lia.
    - destruct (Hb Hn) as [-> _]. assumption. }
  assert (Hm1 : 0 <= m1) by lia.
  pose proof (shr_fexp_spec m1 e' loc_Exact Hm1) as H2. cbv zeta in H2.
  destruct (shr_fexp prec emax m1 e' loc_Exact) as [mrs'' e''].
  simpl fst in H2; simpl snd in H2.
  exists (shr_m mrs''), e''. split; [|split; [reflexivity|]].
  - destruct H2 as [Ha Hb].
    destruct (Z_lt_le_dec 0 (fexp prec emax (Zdigits2 m1 + e') - e')) as [Hn|Hn].
    + destruct (Ha Hn) as [-> _]. apply Z.div_pos; [assumption|].
      apply Z.pow_pos_nonneg; lia.
    + destruct (Hb Hn) as [-> _]. assumption.
  - intros Hlt Hex.
    assert (Hd : Zdigits2 mx <= 1023 - ex) by (apply Zdigits2_le; lia).
    assert (He' : e' <= 971 /\ m' < 2 ^ (1023 - e')).
    { destruct H1 as [Ha Hb]. rewrite fexp_unfold in Ha, Hb.
      destruct (Z_lt_le_dec 0 (Z.max (Zdigits2 mx + ex - 53) (-1074) - ex)) as [Hn|Hn].
      - destruct (Ha Hn) as [Hm He]. split; [lia|].
        rewrite Hm. apply Z.div_lt_upper_bound; [apply Z.pow_pos_nonneg; lia|].
        rewrite <- Z.pow_add_r by lia.
        replace (Z.max (Zdigits2 mx + ex - 53) (-1074) - ex + (1023 - e'))
          with (1023 - ex) by lia.
        assumption.
      - destruct (Hb Hn) as [Hm He]. subst e'. rewrite Hm. split; [lia|assumption]. }
    destruct He' as [He' Hm'lt].
    assert (Hd1 : Zdigits2 m1 <= 1024 - e').
    { apply Zdigits2_le; [|lia]. split; [assumption|].
      replace (1024 - e') with (1023 - e' + 1) by lia.
      rewrite Z.pow_add_r by lia. lia. }
    destruct H2 as [Ha Hb]. rewrite fexp_unfold in Ha, Hb.
    destruct (Z_lt_le_dec 0 (Z.max (Zdigits2 m1 + e' - 53) (-1074) - e')) as [Hn|Hn].
    + destruct (Ha Hn) as [_ He]. lia.
    + destruct (Hb Hn) as [_ He]. lia.
Qed.

(** ** Division by a float not below two *)

Lemma SFdiv_core_binary_spec (mx : positive) (ex : Z) (my : positive) (ey : Z) :
  let e' := Z.min (fexp prec emax (Zdigits2 (Zpos mx) + ex - (Zdigits2 (Zpos my) + ey)))
                  (ex - ey) in
  exists q l,
    SFdiv_core_binary prec emax (Zpos mx) ex (Zpos my) ey = (q, e', l)
    /\ 0 <= q
    /\ q * Zpos my <= Zpos mx * 2 ^ (ex - ey - e').
Proof.
  intros e'. unfold SFdiv_core_binary. fold e'.
  assert (Hs : 0 <= ex - ey - e') by (unfold e'; lia).
  set (m' := match ex - ey - e' with
             | 0 => Zpos mx
             | Zpos _ => Z.shiftl (Zpos mx) (ex - ey - e')
             | Zneg _ => 0
             end).
  assert (Hm' : m' = Zpos mx * 2 ^ (ex - ey - e')).
  { unfold m'. destruct (ex - ey - e') as [|s|s] eqn:E.
    - simpl. lia.
    - apply Z.shiftl_mul_pow2. lia.
    - lia. }
  pose proof (Z_div_mod m' (Zpos my) ltac:(lia)) as Hdiv.
  destruct (Z.div_eucl m' (Zpos my)) as [q r].
  exists q, (new_location (Zpos my) r). split; [reflexivity|].
  destruct Hdiv as [Heq Hr]. rewrite <- Hm'.
  assert (0 <= m') by (rewrite Hm'; apply Z.mul_nonneg_nonneg; [lia|apply Z.pow_nonneg; lia]).
  split; nia.
Qed.

Lemma Zdigits2_pos_gt (p : positive) : Zpos p < 2 ^ Zdigits2 (Zpos p).
Proof.
  simpl. rewrite digits2_pos_size.
  pose proof (Pos.size_gt p) as H. apply Pos2Z.pos_lt_pos in H.
  now rewrite Pos2Z.inj_pow in H.
Qed.

Lemma valid_binary_digits (s : bool) (m : positive) (e : Z) :
  valid_binary prec emax (S754_finite s m e) = true ->
  Zdigits2 (Zpos m) + e <= 1024.
Proof.
  unfold valid_binary, bounded, canonical_mantissa.
  rewrite andb_true_iff, Z.eqb_eq, Z.leb_le, fexp_unfold.
  unfold emax, prec. simpl Zdigits2. lia.
Qed.

Lemma fdiv_nonneg (x : float) (my : positive) (ey : Z) :
  nonneg x = true -> nonneg (x / S754_finite false my ey)%py = true.
Proof.
  destruct x as [s|[|]| |[|] mx ex]; try discriminate; intros _; try reflexivity.
  unfold fdiv, SFdiv.
  destruct (SFdiv_core_binary_spec mx ex my ey) as (q & l & -> & Hq & _).
  destruct (binary_round_aux_shape (xorb false false) q
              (Z.min (fexp prec emax (Zdigits2 (Zpos mx) + ex - (Zdigits2 (Zpos my) + ey)))
                     (ex - ey)) l Hq)
    as (m & e & Hm & -> & _).
  destruct m as [|p|p]; [reflexivity| |lia].
  destruct (e <=? emax - prec); reflexivity.
Qed.

Lemma fdiv_real (x : float) (sy : bool) (my : positive) (ey : Z) :
  valid_binary prec emax x = true -> is_real x = true ->
  2 ^ 52 <= Zpos my -> -51 <= ey ->
  is_real (x / S754_finite sy my ey)%py = true.
Proof.
  intros Hv Hx Hmy Hey.
  destruct x as [s|s| |sx mx ex]; try discriminate; [reflexivity|].
  apply valid_binary_digits in Hv.
  unfold fdiv, SFdiv.
  destruct (SFdiv_core_binary_spec mx ex my ey) as (q & l & -> & Hq & Hle).
  set (e' := Z.min (fexp prec emax (Zdigits2 (Zpos mx) + ex - (Zdigits2 (Zpos my) + ey)))
                   (ex - ey)) in *.
  assert (Hd2 : 53 <= Zdigits2 (Zpos my)).
  { pose proof (Zdigits2_pos_gt my) as H.
    assert (Hlt : 2 ^ 52 < 2 ^ Zdigits2 (Zpos my)) by lia.
    apply Z.pow_lt_mono_r_iff in Hlt; [lia|lia|].
    simpl. lia. }
  assert (He' : e' <= 971).
  { unfold e'. rewrite fexp_unfold. lia. }
  assert (Hs : 0 <= ex - ey - e') by (unfold e'; lia).
  assert (Hqlt : q < 2 ^ (1023 - e')).
  { pose proof (Zdigits2_pos_gt mx) as Hmx.
    assert (Hd1 : 0 <= Zdigits2 (Zpos mx)) by (simpl; lia).
    assert (H1 : Zpos mx * 2 ^ (ex - ey - e') < 2 ^ (1075 - e')).
    { apply Z.lt_le_trans with (2 ^ Zdigits2 (Zpos mx) * 2 ^ (ex - ey - e')).
      - apply Z.mul_lt_mono_pos_r; [apply Z.pow_pos_nonneg; lia|assumption].
      - rewrite <- Z.pow_add_r by lia. apply Z.pow_le_mono_r; lia. }
    assert (H2 : q * 2 ^ 52 <= q * Zpos my) by (apply Z.mul_le_mono_nonneg_l; assumption).
    replace (1075 - e') with (1023 - e' + 52) in H1 by lia.
    rewrite Z.pow_add_r in H1 by lia.
    apply Z.mul_lt_mono_pos_r with (p := 2 ^ 52); lia. }
  destruct (binary_round_aux_shape (xorb sx sy) q e' l Hq) as (m & e & Hm & -> & He).
  specialize (He Hqlt He').
  destruct m as [|p|p]; [reflexivity| |lia].
  replace (e <=? emax - prec) with true; [reflexivity|].
  symmetry. apply Z.leb_le. unfold emax, prec. lia.
Qed.

Lemma int_of_float_floor (x : float) :
  is_real x = true -> nonneg x = true -> int_of_float x = Ok (floor x).
Proof.
  destruct x as [s|s| |[|] m e]; try discriminate; intros _ _; [reflexivity|].
  simpl. destruct (0 <=? e); reflexivity.
Qed.

(** ** The calculator returns *)

Lemma int_of_float_real (x : float) :
  is_real x = true -> exists z, int_of_float x = Ok z.
Proof. destruct x; try discriminate; intros _; eexists; reflexivity. Qed.

Lemma float_of_int_5000 :
  float_of_int 5000 = S754_finite false 5497558138880000 (-40).
Proof. reflexivity. Qed.

Lemma demand_quotient_real (community_data : CommunityProfile) :
  demand_is_real community_data = true ->
  is_real (avg_demand community_data / float_of_int 5000)%py = true.
Proof.
  unfold demand_is_real. rewrite andb_true_iff. intros [Hv Hr].
  rewrite float_of_int_5000. apply fdiv_real; [assumption|assumption| |lia].
  vm_compute. discriminate.
Qed.

(** The calculator reads the instance and leaves it as it is; it raises
    exactly when [int] does, and otherwise returns the record whose
    fields are the expressions of the source. *)
Lemma calculate_run (self : GenAI) (community_data : CommunityProfile) (jobs : Z) :
  int_of_float (avg_demand community_data / float_of_int 5000)%py = Ok jobs ->
  exists m,
    calculate_personalized_impact community_data self = (Ok m, self)
    /\ cost_reduction_percent m
       = ((pv_r2 (model_metrics self) * float_of_int 25
           + wind_r2 (model_metrics self) * float_of_int 15)
          * adjustment_of community_data)%py
    /\ monthly_savings_inr m
       = (avg_demand community_data * lit 12 100 * adjustment_of community_data)%py
    /\ reliability_improvement m
       = ((pv_r2 (model_metrics self) + wind_r2 (model_metrics self))
          * float_of_int 45)%py
    /\ renewable_penetration m
       = ((pv_r2 (model_metrics self) * float_of_int 40
           + wind_r2 (model_metrics self) * float_of_int 30)
          * ghi_factor_of community_data)%py
    /\ peak_reduction m
       = (pv_r2 (model_metrics self) * float_of_int 20
          * adjustment_of community_data)%py
    /\ co2_reduction_tons m
       = (avg_demand community_data * lit 8 10 * adjustment_of community_data)%py
    /\ diesel_displacement_liters m
       = (avg_demand community_data * float_of_int 15
          * adjustment_of community_data)%py
    /\ jobs_created m = imax 3 jobs
    /\ payback_months m
       = max_int_float 18
           (float_of_int 36 - pv_r2 (model_metrics self) * float_of_int 12)%py
    /\ prediction_accuracy_pv m = pv_r2 (model_metrics self)
    /\ prediction_accuracy_wind m = wind_r2 (model_metrics self)
    /\ prediction_error_pv m = pv_mae (model_metrics self)
    /\ prediction_error_wind m = wind_mae (model_metrics self).
Proof.
  intros Hjobs.
  unfold calculate_personalized_impact, bind, self_model_metrics, lift, ret.
  rewrite Hjobs. eexists. split; [reflexivity|].
  cbn [cost_reduction_percent monthly_savings_inr reliability_improvement
       renewable_penetration peak_reduction co2_reduction_tons
       diesel_displacement_liters jobs_created payback_months
       prediction_accuracy_pv prediction_accuracy_wind prediction_error_pv
       prediction_error_wind].
  repeat split.
Qed.

Lemma calculate_raises (self : GenAI) (community_data : CommunityProfile) (e : exn) :
  int_of_float (avg_demand community_data / float_of_int 5000)%py = Raise e ->
  calculate_personalized_impact community_data self = (Raise e, self).
Proof.
  intros H.
  unfold calculate_personalized_impact, bind, self_model_metrics, lift, ret.
  now rewrite H.
Qed.

Lemma calculate_keeps_self (self : GenAI) (community_data : CommunityProfile) :
  snd (calculate_personalized_impact community_data self) = self.
Proof.
  destruct (int_of_float (avg_demand community_data / float_of_int 5000)%py)
    as [jobs|e] eqn:E.
  - destruct (calculate_run self community_data jobs E) as (m & -> & _). reflexivity.
  - now rewrite (calculate_raises self community_data e E).
Qed.

(** Outside the real numbers [int] raises, and so does the calculator:
    the text [inf] or [nan] typed at the prompt is such an input. *)
Example infinite_demand_raises :
  calculate_personalized_impact
    (with_avg_demand (S754_infinity false) default_profile) init
  = (Raise OverflowError, init).
Proof. reflexivity. Qed.

Example nan_demand_raises :
  calculate_personalized_impact (with_avg_demand S754_nan default_profile) init
  = (Raise ValueError, init).
Proof. reflexivity. Qed.

Lemma calculate_total (self : GenAI) (community_data : CommunityProfile) :
  demand_is_real community_data = true ->
  exists jobs,
    int_of_float (avg_demand community_data / float_of_int 5000)%py = Ok jobs.
Proof. intros H. apply int_of_float_real, demand_quotient_real, H. Qed.

(** ** The scenario of the default answers *)

(** C1. For the profile with type rural_agricultural, average demand
    22000, average irradiance 400 and average wind speed 3.0, whatever
    its other fields, the factors are ghi_factor = 1.0 and
    wind_factor = 1.0 and the calculator returns
    cost_reduction_percent = 39.05, monthly_savings = 2640,
    co2_reduction_tons = 17600, jobs_created = 4 and
    payback_months = 24.204, each decimal being the float nearest to
    it. *)
Theorem default_scenario_metrics :
  forall (n r pop : string) (peak : float) (season challenge needs : string),
  let community_data :=
    {| name := n; region := r; type := "rural_agricultural";
       population := pop; avg_demand := float_of_int 22000;
       peak_demand := peak; avg_ghi := float_of_int 400;
       avg_wind_speed := lit 30 10; season_pattern := season;
       main_challenge := challenge; special_needs := needs |} in
  ghi_factor_of community_data = lit 10 10
  /\ wind_factor_of community_data = lit 10 10
  /\ exists m,
       calculate_personalized_impact community_data init = (Ok m, init)
       /\ cost_reduction_percent m = lit 3905 100
       /\ monthly_savings_inr m = float_of_int 2640
       /\ co2_reduction_tons m = float_of_int 17600
       /\ jobs_created m = 4
       /\ payback_months m = Float (lit 24204 1000).
Proof.
  intros n r pop peak season challenge needs community_data.
  split; [reflexivity|]. split; [reflexivity|].
  destruct (calculate_run init community_data 4 eq_refl)
    as (m & Hrun & Hcost & Hsav & _ & _ & _ & Hco2 & _ & Hjobs & Hpay & _).
  exists m. split; [exact Hrun|].
  rewrite Hcost, Hsav, Hco2, Hjobs, Hpay.
  repeat split; vm_compute; reflexivity.
Qed.

(** ** Payback period *)

(** C2, as stated, fails: for the default profile the payback period is
    the float 24.204, which is neither an [int] nor a whole number, and
    it differs from its floor 24. *)
Lemma payback_months_not_integer :
  exists m,
    calculate_personalized_impact default_profile init = (Ok m, init)
    /\ payback_months m = Float (lit 24204 1000)
    /\ (forall z : Z, payback_months m <> Int z)
    /\ is_integer (float_of_num (payback_months m)) = false
    /\ floor (float_of_num (payback_months m)) = 24
    /\ float_of_num (payback_months m) <> float_of_int 24.
Proof.
  destruct (calculate_run init default_profile 4 eq_refl)
    as (m & Hrun & _ & _ & _ & _ & _ & _ & _ & _ & Hpay & _).
  exists m. split; [exact Hrun|]. rewrite Hpay.
  repeat split; try (vm_compute; reflexivity); vm_compute; discriminate.
Qed.

(** C2, amended.  For every profile whose average demand is a real
    number the calculator returns, and payback_months is the float
    max(18, 36 - PV_R2 * 12) with PV_R2 = 0.983, that is 24.204: it is
    not floored, and it is at least 18. *)
Theorem payback_months_value (community_data : CommunityProfile) :
  demand_is_real community_data = true ->
  exists m,
    calculate_personalized_impact community_data init = (Ok m, init)
    /\ payback_months m
       = max_int_float 18 (float_of_int 36 - lit 983 1000 * float_of_int 12)%py
    /\ payback_months m = Float (lit 24204 1000)
    /\ fle (float_of_int 18) (float_of_num (payback_months m)) = true.
Proof.
  intros Hreal.
  destruct (calculate_total init community_data Hreal) as [jobs Hjobs].
  destruct (calculate_run init community_data jobs Hjobs)
    as (m & Hrun & _ & _ & _ & _ & _ & _ & _ & _ & Hpay & _).
  exists m. split; [exact Hrun|]. rewrite Hpay.
  repeat split; vm_compute; reflexivity.
Qed.

Lemma payback_months_value_witness :
  demand_is_real default_profile = true
  /\ exists m,
       calculate_personalized_impact default_profile init = (Ok m, init)
       /\ payback_months m
          = max_int_float 18 (float_of_int 36 - lit 983 1000 * float_of_int 12)%py
       /\ payback_months m = Float (lit 24204 1000)
       /\ fle (float_of_int 18) (float_of_num (payback_months m)) = true.
Proof.
  split; [reflexivity|]. apply (payback_months_value default_profile). reflexivity.
Defined.

(** ** Reliability improvement *)

(** C10. For every profile whose average demand is a real number the
    calculator returns, and reliability_improvement is the constant
    (0.983 + 0.965) * 45 = 87.66, whatever the fields of the profile. *)
Theorem reliability_improvement_constant (community_data : CommunityProfile) :
  demand_is_real community_data = true ->
  exists m,
    calculate_personalized_impact community_data init = (Ok m, init)
    /\ reliability_improvement m
       = ((lit 983 1000 + lit 965 1000) * float_of_int 45)%py
    /\ reliability_improvement m = lit 8766 100.
Proof.
  intros Hreal.
  destruct (calculate_total init community_data Hreal) as [jobs Hjobs].
  destruct (calculate_run init community_data jobs Hjobs)
    as (m & Hrun & _ & _ & Hrel & _).
  exists m. split; [exact Hrun|]. rewrite Hrel.
  split; vm_compute; reflexivity.
Qed.

Lemma reliability_improvement_constant_witness :
  demand_is_real default_profile = true
  /\ exists m,
       calculate_personalized_impact default_profile init = (Ok m, init)
       /\ reliability_improvement m
          = ((lit 983 1000 + lit 965 1000) * float_of_int 45)%py
       /\ reliability_improvement m = lit 8766 100.
Proof.
  split; [reflexivity|].
  apply (reliability_improvement_constant default_profile). reflexivity.
Defined.

(** ** Renewable penetration *)

(** C5. For every profile whose average demand is a real number,
    renewable_penetration is (PV_R2 * 40 + WIND_R2 * 30) * ghi_factor
    with PV_R2 = 0.983 and WIND_R2 = 0.965, and it keeps its value when
    the average wind speed of the profile is replaced by any other
    float. *)
Theorem renewable_penetration_formula
  (community_data : CommunityProfile) (wind : float) :
  demand_is_real community_data = true ->
  exists m m',
    calculate_personalized_impact community_data init = (Ok m, init)
    /\ calculate_personalized_impact
         (with_avg_wind_speed wind community_data) init = (Ok m', init)
    /\ renewable_penetration m
       = ((lit 983 1000 * float_of_int 40 + lit 965 1000 * float_of_int 30)
          * ghi_factor_of community_data)%py
    /\ renewable_penetration m' = renewable_penetration m.
Proof.
  intros Hreal.
  destruct (calculate_total init community_data Hreal) as [jobs Hjobs].
  destruct (calculate_run init community_data jobs Hjobs)
    as (m & Hrun & _ & _ & _ & Hren & _).
  destruct (calculate_run init (with_avg_wind_speed wind community_data) jobs Hjobs)
    as (m' & Hrun' & _ & _ & _ & Hren' & _).
  exists m, m'. repeat split; try assumption.
  rewrite Hren, Hren'. reflexivity.
Qed.

Lemma renewable_penetration_formula_witness :
  demand_is_real default_profile = true
  /\ exists m m',
       calculate_personalized_impact default_profile init = (Ok m, init)
       /\ calculate_personalized_impact
            (with_avg_wind_speed (lit 75 10) default_profile) init = (Ok m', init)
       /\ renewable_penetration m
          = ((lit 983 1000 * float_of_int 40 + lit 965 1000 * float_of_int 30)
             * ghi_factor_of default_profile)%py
       /\ renewable_penetration m' = renewable_penetration m.
Proof.
  split; [reflexivity|].
  apply (renewable_penetration_formula default_profile (lit 75 10)). reflexivity.
Defined.

(** ** What the metrics depend on *)

(** C9. Two profiles that agree on the community type, the average
    demand and the average irradiance get the same outcome from the
    calculator, metrics or exception, whatever their other fields. *)
Theorem metrics_depend_on_three_fields (self : GenAI) (p1 p2 : CommunityProfile) :
  type p1 = type p2 ->
  avg_demand p1 = avg_demand p2 ->
  avg_ghi p1 = avg_ghi p2 ->
  calculate_personalized_impact p1 self = calculate_personalized_impact p2 self.
Proof.
  intros Htype Hdemand Hghi.
  unfold calculate_personalized_impact, adjustment_of, ghi_factor_of.
  rewrite Htype, Hdemand, Hghi. reflexivity.
Qed.

Lemma metrics_depend_on_three_fields_witness :
  let other :=
    {| name := "Harbour Town"; region := "Gujarat"; type := "rural_agricultural";
       population := "52,000"; avg_demand := float_of_int 22000;
       peak_demand := float_of_int 90000; avg_ghi := float_of_int 400;
       avg_wind_speed := lit 95 10;
       season_pattern := "Monsoon dominant (Variable solar, moderate demand)";
       main_challenge := "High energy costs";
       special_needs := "Cold storage" |} in
  calculate_personalized_impact default_profile init
  = calculate_personalized_impact other init.
Proof.
  intros other.
  apply (metrics_depend_on_three_fields init default_profile other); reflexivity.
Defined.

(** The instance is read through four entries of [model_metrics] only. *)
Lemma calculate_reads_model_metrics
  (self1 self2 : GenAI) (community_data : CommunityProfile) :
  pv_r2 (model_metrics self1) = pv_r2 (model_metrics self2) ->
  wind_r2 (model_metrics self1) = wind_r2 (model_metrics self2) ->
  pv_mae (model_metrics self1) = pv_mae (model_metrics self2) ->
  wind_mae (model_metrics self1) = wind_mae (model_metrics self2) ->
  fst (calculate_personalized_impact community_data self1)
  = fst (calculate_personalized_impact community_data self2).
Proof.
  intros Hpv Hwind Hpe Hwe.
  unfold calculate_personalized_impact, bind, self_model_metrics, lift, ret.
  rewrite Hpv, Hwind, Hpe, Hwe.
  destruct (int_of_float _); reflexivity.
Qed.

(** C7, as stated, fails: the result depends on data of the instance
    beyond pv_r2 and wind_r2.  An instance with the same
    pv_r2 = 0.983 and wind_r2 = 0.965 as the one the constructor
    builds, but with other values under pv_mae and wind_mae, returns
    other metrics for the same profile: the two entries are read into
    prediction_error_pv and prediction_error_wind. *)
Lemma metrics_depend_on_error_constants :
  let other :=
    {| model_metrics :=
         {| window_size := window_size (model_metrics init);
            architecture := architecture (model_metrics init);
            pv_mae := lit 4005 10;
            pv_rmse := pv_rmse (model_metrics init);
            pv_r2 := lit 983 1000;
            wind_mae := lit 1902 10;
            wind_rmse := wind_rmse (model_metrics init);
            wind_r2 := lit 965 1000 |};
       community_templates := community_templates init |} in
  pv_r2 (model_metrics other) = pv_r2 (model_metrics init)
  /\ wind_r2 (model_metrics other) = wind_r2 (model_metrics init)
  /\ exists m m',
       calculate_personalized_impact default_profile init = (Ok m, init)
       /\ calculate_personalized_impact default_profile other = (Ok m', other)
       /\ prediction_error_pv m = lit 367709 1000
       /\ prediction_error_pv m' = lit 4005 10
       /\ prediction_error_wind m = lit 178476 1000
       /\ prediction_error_wind m' = lit 1902 10
       /\ m <> m'.
Proof.
  intros other. split; [reflexivity|]. split; [reflexivity|].
  destruct (calculate_run init default_profile 4 eq_refl)
    as (m & Hrun & _ & _ & _ & _ & _ & _ & _ & _ & _ & _ & _ & Hpe & Hwe).
  destruct (calculate_run other default_profile 4 eq_refl)
    as (m' & Hrun' & _ & _ & _ & _ & _ & _ & _ & _ & _ & _ & _ & Hpe' & Hwe').
  exists m, m'. repeat split; try assumption.
  intros Heq. rewrite Heq, Hpe' in Hpe. vm_compute in Hpe. discriminate.
Qed.

(** C7, amended.  The calculator is pure and deterministic up to four
    constants of the instance.  On identical profiles, a first
    invocation, a second one on the same instance and one on any
    instance with the same pv_r2, wind_r2, pv_mae and wind_mae give
    identical outcomes, and none of them changes its instance; nothing
    else of the instance (its other model metrics, its templates)
    enters the result.  In the instance that the constructor builds
    the four constants are 0.983, 0.965, 367.709 and 178.476. *)
Theorem calculate_deterministic_in_four_constants
  (self1 self2 : GenAI) (p1 p2 : CommunityProfile) :
  p1 = p2 ->
  pv_r2 (model_metrics self1) = pv_r2 (model_metrics self2) ->
  wind_r2 (model_metrics self1) = wind_r2 (model_metrics self2) ->
  pv_mae (model_metrics self1) = pv_mae (model_metrics self2) ->
  wind_mae (model_metrics self1) = wind_mae (model_metrics self2) ->
  (let (r1, after1) := calculate_personalized_impact p1 self1 in
   let (r2, after2) := calculate_personalized_impact p2 after1 in
   let (r3, after3) := calculate_personalized_impact p2 self2 in
   r1 = r2 /\ r1 = r3 /\ after1 = self1 /\ after2 = self1 /\ after3 = self2)
  /\ pv_r2 (model_metrics init) = lit 983 1000
  /\ wind_r2 (model_metrics init) = lit 965 1000
  /\ pv_mae (model_metrics init) = lit 367709 1000
  /\ wind_mae (model_metrics init) = lit 178476 1000.
Proof.
  intros <- Hpv Hwind Hpe Hwe. split; [|repeat split].
  pose proof (calculate_keeps_self self1 p1) as Hself1.
  pose proof (calculate_keeps_self self2 p1) as Hself2.
  pose proof (calculate_reads_model_metrics self1 self2 p1 Hpv Hwind Hpe Hwe)
    as Hsame.
  destruct (calculate_personalized_impact p1 self1) as [r1 after1] eqn:E1.
  simpl in Hself1. subst after1. rewrite E1.
  destruct (calculate_personalized_impact p1 self2) as [r3 after3] eqn:E3.
  simpl in Hself2, Hsame. subst after3. auto.
Qed.

Lemma calculate_deterministic_in_four_constants_witness :
  let other :=
    {| model_metrics :=
         {| window_size := 24;
            architecture := "LSTM";
            pv_mae := lit 367709 1000;
            pv_rmse := lit 6000 10;
            pv_r2 := lit 983 1000;
            wind_mae := lit 178476 1000;
            wind_rmse := lit 2500 10;
            wind_r2 := lit 965 1000 |};
       community_templates := [] |} in
  (let (r1, after1) := calculate_personalized_impact default_profile init in
   let (r2, after2) := calculate_personalized_impact default_profile after1 in
   let (r3, after3) := calculate_personalized_impact default_profile other in
   r1 = r2 /\ r1 = r3 /\ after1 = init /\ after2 = init /\ after3 = other)
  /\ pv_r2 (model_metrics init) = lit 983 1000
  /\ wind_r2 (model_metrics init) = lit 965 1000
  /\ pv_mae (model_metrics init) = lit 367709 1000
  /\ wind_mae (model_metrics init) = lit 178476 1000.
Proof.
  intros other.
  apply (calculate_deterministic_in_four_constants
           init other default_profile default_profile); reflexivity.
Defined.

(** ** The two potential factors *)

Lemma fmin_le (a b : float) : fle a a = true -> fle (fmin a b) a = true.
Proof.
  intros Ha. unfold fmin, flt, fle, SFltb, SFleb in *.
  destruct (SFcompare b a) as [[| |]|] eqn:E; cbn iota; rewrite ?E; auto.
Qed.

Lemma fmin_nonneg (a b : float) :
  nonneg a = true -> nonneg b = true -> nonneg (fmin a b) = true.
Proof. intros Ha Hb. unfold fmin. destruct (flt b a); assumption. Qed.

(** C3, as stated, fails: an average irradiance of -400 and an average
    wind speed of -3.0 give the factors -1.0 and -1.0, below zero. *)
Lemma negative_inputs_give_negative_factors :
  let community_data :=
    with_avg_ghi (float_of_int (-400))
      (with_avg_wind_speed (lit (-30) 10) default_profile) in
  ghi_factor_of community_data = float_of_int (-1)
  /\ wind_factor_of community_data = float_of_int (-1)
  /\ nonneg (ghi_factor_of community_data) = false
  /\ nonneg (wind_factor_of community_data) = false.
Proof. repeat split; vm_compute; reflexivity. Qed.

(** C3, amended.  For every profile ghi_factor is at most 1.5 and
    wind_factor at most 1.8, whatever the magnitude and the sign of the
    inputs; ghi_factor is at least 0 when the average irradiance is,
    and wind_factor is at least 0 when the average wind speed is. *)
Theorem factors_bounded (community_data : CommunityProfile) :
  fle (ghi_factor_of community_data) (lit 15 10) = true
  /\ fle (wind_factor_of community_data) (lit 18 10) = true
  /\ (nonneg (avg_ghi community_data) = true ->
      nonneg (ghi_factor_of community_data) = true)
  /\ (nonneg (avg_wind_speed community_data) = true ->
      nonneg (wind_factor_of community_data) = true).
Proof.
  unfold ghi_factor_of, wind_factor_of. repeat split.
  - apply fmin_le. reflexivity.
  - apply fmin_le. reflexivity.
  - intros H. apply fmin_nonneg; [reflexivity|].
    change (float_of_int 400) with (S754_finite false 7036874417766400 (-44)).
    apply fdiv_nonneg, H.
  - intros H. apply fmin_nonneg; [reflexivity|].
    change (lit 30 10) with (S754_finite false 6755399441055744 (-51)).
    apply fdiv_nonneg, H.
Qed.

Lemma factors_bounded_witness :
  nonneg (avg_ghi default_profile) = true
  /\ nonneg (avg_wind_speed default_profile) = true
  /\ fle (ghi_factor_of default_profile) (lit 15 10) = true
  /\ fle (wind_factor_of default_profile) (lit 18 10) = true
  /\ nonneg (ghi_factor_of default_profile) = true
  /\ nonneg (wind_factor_of default_profile) = true.
Proof.
  destruct (factors_bounded default_profile) as (Hg & Hw & Hg0 & Hw0).
  split; [reflexivity|]. split; [reflexivity|].
  split; [exact Hg|]. split; [exact Hw|].
  split; [apply Hg0|apply Hw0]; reflexivity.
Defined.

(** ** Jobs created *)

Lemma imax_max (a b : Z) : imax a b = Z.max a b.
Proof. unfold imax. destruct (Z.ltb_spec a b); lia. Qed.

Lemma adjustment_finite (community_data : CommunityProfile) :
  exists m e, adjustment_of community_data = S754_finite false m e.
Proof.
  unfold adjustment_of, type_factors.
  rewrite !lookup_insert, lookup_empty.
  repeat case_decide; vm_compute; eauto.
Qed.

Lemma feq_zero (x : float) :
  feq x (float_of_int 0) = true -> exists s, x = S754_zero s.
Proof.
  destruct x as [s|[|]| |[|] m e]; try discriminate. intros _. now exists s.
Qed.

(** C4. For every profile whose average demand is a real number and
    at least 0, the calculator returns and jobs_created is
    max(3, floor(avg_demand / 5000)), the quotient being the float the
    division returns; it is at least 3.  When the average demand is 0,
    jobs_created is 3, co2_reduction_tons is 0 and monthly_savings is
    0. *)
Theorem jobs_created_floor (community_data : CommunityProfile) :
  demand_is_real community_data = true ->
  nonneg (avg_demand community_data) = true ->
  exists m,
    calculate_personalized_impact community_data init = (Ok m, init)
    /\ jobs_created m
       = Z.max 3 (floor (avg_demand community_data / float_of_int 5000)%py)
    /\ 3 <= jobs_created m
    /\ (feq (avg_demand community_data) (float_of_int 0) = true ->
        jobs_created m = 3
        /\ feq (co2_reduction_tons m) (float_of_int 0) = true
        /\ feq (monthly_savings_inr m) (float_of_int 0) = true).
Proof.
  intros Hreal Hpos.
  assert (Hjobs : int_of_float (avg_demand community_data / float_of_int 5000)%py
                  = Ok (floor (avg_demand community_data / float_of_int 5000)%py)).
  { apply int_of_float_floor; [now apply demand_quotient_real|].
    rewrite float_of_int_5000. now apply fdiv_nonneg. }
  destruct (calculate_run init community_data _ Hjobs)
    as (m & Hrun & _ & Hsav & _ & _ & _ & Hco2 & _ & Hj & _).
  exists m. split; [exact Hrun|]. rewrite Hj, imax_max.
  split; [reflexivity|]. split; [lia|].
  intros Hzero. apply feq_zero in Hzero. destruct Hzero as [s Hs].
  rewrite Hco2, Hsav, Hs.
  destruct (adjustment_finite community_data) as (ma & ea & ->).
  repeat split; destruct s; reflexivity.
Qed.

Lemma jobs_created_floor_witness :
  let community_data := with_avg_demand (float_of_int 0) default_profile in
  demand_is_real community_data = true
  /\ nonneg (avg_demand community_data) = true
  /\ feq (avg_demand community_data) (float_of_int 0) = true
  /\ exists m,
       calculate_personalized_impact community_data init = (Ok m, init)
       /\ jobs_created m = 3
       /\ feq (co2_reduction_tons m) (float_of_int 0) = true
       /\ feq (monthly_savings_inr m) (float_of_int 0) = true.
Proof.
  intros community_data.
  split; [reflexivity|]. split; [reflexivity|]. split; [reflexivity|].
  destruct (jobs_created_floor community_data eq_refl eq_refl)
    as (m & Hrun & _ & _ & Hzero).
  exists m. split; [exact Hrun|]. apply Hzero. reflexivity.
Defined.

(** ** Unrecognised community types *)

Lemma type_factors_unrecognised (t : string) :
  unrecognised t -> type_factors !! t = None.
Proof.
  intros (H1 & H2 & H3 & H4). unfold type_factors.
  rewrite !lookup_insert_ne by congruence. apply lookup_empty.
Qed.

(** C6. For every profile whose community type is none of
    rural_agricultural, urban_mixed, industrial_zone and coastal_area
    (and whose average demand is a real number) the adjustment factor
    is 1.0, the metrics that use the factor are their formulas at 1.0,
    and the outcome is the one the same profile gets with the type
    rural_agricultural, whose factor is 1.0. *)
Theorem unrecognised_type_factor_one (community_data : CommunityProfile) :
  unrecognised (type community_data) ->
  demand_is_real community_data = true ->
  adjustment_of community_data = lit 10 10
  /\ calculate_personalized_impact community_data init
     = calculate_personalized_impact
         (with_type "rural_agricultural" community_data) init
  /\ exists m,
       calculate_personalized_impact community_data init = (Ok m, init)
       /\ cost_reduction_percent m
          = ((lit 983 1000 * float_of_int 25 + lit 965 1000 * float_of_int 15)
             * lit 10 10)%py
       /\ monthly_savings_inr m
          = (avg_demand community_data * lit 12 100 * lit 10 10)%py
       /\ peak_reduction m = (lit 983 1000 * float_of_int 20 * lit 10 10)%py
       /\ co2_reduction_tons m
          = (avg_demand community_data * lit 8 10 * lit 10 10)%py
       /\ diesel_displacement_liters m
          = (avg_demand community_data * float_of_int 15 * lit 10 10)%py.
Proof.
  intros Htype Hreal.
  assert (Hadj : adjustment_of community_data = lit 10 10).
  { unfold adjustment_of. now rewrite (type_factors_unrecognised _ Htype). }
  split; [exact Hadj|]. split.
  - unfold calculate_personalized_impact. rewrite Hadj. reflexivity.
  - destruct (calculate_total init community_data Hreal) as [jobs Hjobs].
    destruct (calculate_run init community_data jobs Hjobs)
      as (m & Hrun & Hcost & Hsav & _ & _ & Hpeak & Hco2 & Hdiesel & _).
    exists m. rewrite Hadj in *. repeat split; assumption.
Qed.

Lemma unrecognised_type_factor_one_witness :
  let community_data := with_type "desert_outpost" default_profile in
  unrecognised (type community_data)
  /\ demand_is_real community_data = true
  /\ adjustment_of community_data = lit 10 10
  /\ exists m,
       calculate_personalized_impact community_data init = (Ok m, init)
       /\ cost_reduction_percent m = lit 3905 100.
Proof.
  intros community_data.
  assert (Htype : unrecognised (type community_data))
    by (repeat split; discriminate).
  destruct (unrecognised_type_factor_one community_data Htype eq_refl)
    as (Hadj & _ & m & Hrun & Hcost & _).
  split; [exact Htype|]. split; [reflexivity|]. split; [exact Hadj|].
  exists m. split; [exact Hrun|]. rewrite Hcost. reflexivity.
Defined.

(** ** Substrings *)

Lemma append_assoc (a b c : string) : (a +:+ b) +:+ c = a +:+ (b +:+ c).
Proof.
  induction a as [|x a IH]; [reflexivity|].
  change (String x ((a +:+ b) +:+ c) = String x (a +:+ (b +:+ c))).
  now f_equal.
Qed.

Lemma prefix_append (needle post : string) :
  String.prefix needle (needle +:+ post) = true.
Proof.
  induction needle as [|c needle IH]; simpl.
  - destruct post; reflexivity.
  - destruct (ascii_dec c c) as [_|Hne]; [exact IH|now elim Hne].
Qed.

Lemma prefix_split (needle : string) : forall hay : string,
  String.prefix needle hay = true -> exists post, hay = needle +:+ post.
Proof.
  induction needle as [|c needle IH]; intros hay H.
  - now exists hay.
  - destruct hay as [|d hay]; simpl in H; [discriminate|].
    destruct (ascii_dec c d) as [->|_]; [|discriminate].
    destruct (IH hay H) as [post ->]. now exists post.
Qed.

Lemma str_in_unfold (needle hay : string) :
  str_in needle hay
  = String.prefix needle hay
    || match hay with
       | EmptyString => false
       | String _ rest => str_in needle rest
       end.
Proof. destruct hay; reflexivity. Qed.

Lemma str_in_occurs (needle hay : string) :
  str_in needle hay = true <-> occurs needle hay.
Proof.
  split.
  - induction hay as [|c hay IH]; rewrite str_in_unfold, orb_true_iff; intros [H|H].
    + apply prefix_split in H. destruct H as [post ->]. now exists EmptyString, post.
    + discriminate.
    + apply prefix_split in H. destruct H as [post Hpost].
      exists EmptyString, post. exact Hpost.
    + destruct (IH H) as (pre & post & ->). now exists (String c pre), post.
  - intros (pre & post & ->). induction pre as [|c pre IH].
    + change (EmptyString +:+ needle +:+ post) with (needle +:+ post).
      now rewrite str_in_unfold, prefix_append.
    + change (String c pre +:+ needle +:+ post)
        with (String c (pre +:+ needle +:+ post)).
      rewrite str_in_unfold. cbn iota. rewrite IH. apply orb_true_r.
Qed.

Lemma occurs_trans (a b c : string) : occurs a b -> occurs b c -> occurs a c.
Proof.
  intros (pre & post & ->) (pre' & post' & ->).
  exists (pre' +:+ pre), (post +:+ post').
  now rewrite !append_assoc.
Qed.

Lemma occurs_join (x : string) (parts : list string) :
  In x parts -> occurs x (str_join parts).
Proof.
  induction parts as [|a parts IH]; intros Hin; [destruct Hin|].
  destruct Hin as [->|Hin].
  - now exists EmptyString, (str_join parts).
  - destruct (IH Hin) as (pre & post & E).
    exists (a +:+ pre), post. simpl. rewrite E. now rewrite append_assoc.
Qed.

Lemma str_in_join (x : string) (parts : list string) :
  In x parts -> str_in x (str_join parts) = true.
Proof. intros H. now apply str_in_occurs, occurs_join. Qed.

Lemma str_in_trans (a b c : string) :
  str_in a b = true -> str_in b c = true -> str_in a c = true.
Proof. rewrite !str_in_occurs. apply occurs_trans. Qed.

(** ** The report shows every metric *)

Section RenderProperties.

Variable str_of_float : float -> string.
Variable str_upper : string -> string.
Variable str_title : string -> string.

Lemma technical_analysis_run
  (self : GenAI) (community_data : CommunityProfile) (pm : ImpactMetrics) :
  generate_technical_analysis str_of_float str_upper community_data pm self
  = (Ok (str_join (technical_analysis_parts str_of_float str_upper community_data pm)),
     self).
Proof. reflexivity. Qed.

Lemma ai_report_run
  (self : GenAI) (community_data : CommunityProfile) (pm : ImpactMetrics)
  (now : string) :
  generate_ai_report str_of_float str_upper str_title community_data pm now self
  = (Ok (str_join
           (ai_report_parts str_of_float str_upper str_title community_data pm
              (str_join (technical_analysis_parts str_of_float str_upper
                           community_data pm))
              (pv_r2 (model_metrics self)) (wind_r2 (model_metrics self)) now)),
     self).
Proof. reflexivity. Qed.

Lemma analysis_in_report
  (community_data : CommunityProfile) (pm : ImpactMetrics)
  (analysis : string) (pv wind : float) (now : string) :
  In analysis
     (ai_report_parts str_of_float str_upper str_title community_data pm analysis pv wind now).
Proof. unfold ai_report_parts. find_piece. Qed.

Lemma str_in_report
  (community_data : CommunityProfile) (pm : ImpactMetrics)
  (analysis : string) (pv wind : float) (now : string) (x : string) :
  In x (ai_report_parts str_of_float str_upper str_title community_data pm
          analysis pv wind now)
  \/ (In x (technical_analysis_parts str_of_float str_upper community_data pm)
      /\ analysis
         = str_join (technical_analysis_parts str_of_float str_upper
                       community_data pm)) ->
  str_in x (str_join (ai_report_parts str_of_float str_upper str_title
                        community_data pm analysis pv wind now)) = true.
Proof.
  intros [H|[H ->]].
  - now apply str_in_join.
  - apply str_in_trans with
      (str_join (technical_analysis_parts str_of_float str_upper community_data pm)).
    + now apply str_in_join.
    + apply str_in_join, analysis_in_report.
Qed.

(** Every metric, in the format the template gives it, is in the report
    rendered from any record of metrics. *)
Lemma report_shows_metrics
  (self : GenAI) (community_data : CommunityProfile) (pm : ImpactMetrics)
  (now : string) :
  exists report,
    generate_ai_report str_of_float str_upper str_title community_data pm now self
    = (Ok report, self)
    /\ str_in (format_fixed false 0 (cost_reduction_percent pm)) report = true
    /\ str_in (format_fixed true 0 (monthly_savings_inr pm)) report = true
    /\ str_in (format_fixed false 0 (reliability_improvement pm)) report = true
    /\ str_in (format_fixed false 0 (renewable_penetration pm)) report = true
    /\ str_in (format_fixed false 0 (peak_reduction pm)) report = true
    /\ str_in (format_fixed true 0 (co2_reduction_tons pm)) report = true
    /\ str_in (format_fixed true 0 (diesel_displacement_liters pm)) report = true
    /\ str_in (str_of_int (jobs_created pm)) report = true
    /\ str_in (format_fixed_num 0 (payback_months pm)) report = true
    /\ str_in (format_percent 1 (prediction_accuracy_pv pm)) report = true
    /\ str_in (format_percent 1 (prediction_accuracy_wind pm)) report = true
    /\ str_in (format_fixed false 0 (prediction_error_pv pm)) report = true
    /\ str_in (format_fixed false 0 (prediction_error_wind pm)) report = true.
Proof.
  eexists. split; [apply ai_report_run|].
  repeat split; apply str_in_report;
    first [ left; unfold ai_report_parts; find_piece; fail
          | right; split; [unfold technical_analysis_parts; find_piece|reflexivity] ].
Qed.

(** C8. For every profile whose average demand is a real number, the
    calculator returns the metrics of the profile and the renderer
    returns a report in which each of the thirteen metrics occurs, in
    the format that the template gives it: no decimals, with thousands
    separators for the amounts, as a percentage with one decimal for
    the two accuracies. *)
Theorem report_shows_every_metric
  (community_data : CommunityProfile) (now : string) :
  demand_is_real community_data = true ->
  exists pm report,
    calculate_personalized_impact community_data init = (Ok pm, init)
    /\ generate_ai_report str_of_float str_upper str_title community_data pm now init
       = (Ok report, init)
    /\ str_in (format_fixed false 0 (cost_reduction_percent pm)) report = true
    /\ str_in (format_fixed true 0 (monthly_savings_inr pm)) report = true
    /\ str_in (format_fixed false 0 (reliability_improvement pm)) report = true
    /\ str_in (format_fixed false 0 (renewable_penetration pm)) report = true
    /\ str_in (format_fixed false 0 (peak_reduction pm)) report = true
    /\ str_in (format_fixed true 0 (co2_reduction_tons pm)) report = true
    /\ str_in (format_fixed true 0 (diesel_displacement_liters pm)) report = true
    /\ str_in (str_of_int (jobs_created pm)) report = true
    /\ str_in (format_fixed_num 0 (payback_months pm)) report = true
    /\ str_in (format_percent 1 (prediction_accuracy_pv pm)) report = true
    /\ str_in (format_percent 1 (prediction_accuracy_wind pm)) report = true
    /\ str_in (format_fixed false 0 (prediction_error_pv pm)) report = true
    /\ str_in (format_fixed false 0 (prediction_error_wind pm)) report = true.
Proof.
  intros Hreal.
  destruct (calculate_total init community_data Hreal) as [jobs Hjobs].
  destruct (calculate_run init community_data jobs Hjobs) as (pm & Hrun & _).
  destruct (report_shows_metrics init community_data pm now) as (report & Hreport).
  exists pm, report. split; [exact Hrun|exact Hreport].
Qed.

End RenderProperties.

Lemma report_shows_every_metric_witness :
  demand_is_real default_profile = true
  /\ exists pm report,
       calculate_personalized_impact default_profile init = (Ok pm, init)
       /\ generate_ai_report repr_whole ascii_upper ascii_title
            default_profile pm "2025-11-03 10:15" init
          = (Ok report, init)
       /\ str_in (format_fixed false 0 (cost_reduction_percent pm)) report = true
       /\ str_in (format_fixed true 0 (monthly_savings_inr pm)) report = true
       /\ str_in (format_fixed false 0 (reliability_improvement pm)) report = true
       /\ str_in (format_fixed false 0 (renewable_penetration pm)) report = true
       /\ str_in (format_fixed false 0 (peak_reduction pm)) report = true
       /\ str_in (format_fixed true 0 (co2_reduction_tons pm)) report = true
       /\ str_in (format_fixed true 0 (diesel_displacement_liters pm)) report = true
       /\ str_in (str_of_int (jobs_created pm)) report = true
       /\ str_in (format_fixed_num 0 (payback_months pm)) report = true
       /\ str_in (format_percent 1 (prediction_accuracy_pv pm)) report = true
       /\ str_in (format_percent 1 (prediction_accuracy_wind pm)) report = true
       /\ str_in (format_fixed false 0 (prediction_error_pv pm)) report = true
       /\ str_in (format_fixed false 0 (prediction_error_wind pm)) report = true.
Proof.
  split; [reflexivity|].
  apply (report_shows_every_metric repr_whole ascii_upper ascii_title
           default_profile "2025-11-03 10:15").
  reflexivity.
Defined.

(** ** The report of the default answers *)

(** The first run of the program with every prompt left blank: the
    lines of the report that carry the metrics. *)
Example default_report_lines :
  match calculate_personalized_impact default_profile init with
  | (Ok pm, self) =>
      match generate_ai_report repr_whole ascii_upper ascii_title
              default_profile pm "2025-11-03 10:15" self with
      | (Ok report, _) =>
          forallb (fun line => str_in line report)
            [ "COMMUNITY TYPE: Rural Agricultural";
              "• 💰 ECONOMIC: 39% cost reduction (₹2,640/month)";
              "• 🌱 ENVIRONMENTAL: 17,600 tons CO₂ reduction annually";
              "• ⚡ RELIABILITY: 88% improvement in energy access";
              "• 👥 SOCIAL: 4 local green jobs created";
              "• Average Demand: 22,000 kW";
              "• Solar Potential: 400.0 W/m² GHI";
              "• Wind Potential: 3.0 m/s";
              "• Solar Prediction: 98.3% accuracy";
              "• Wind Prediction: 96.5% accuracy";
              "• Combined Reliability: 97.4%";
              "• Achieve 68% renewable penetration";
              "MODEL PERFORMANCE IN SAMPLE COMMUNITY:";
              "• Solar Prediction Accuracy: 98.3% (R² = 0.983)";
              "• Prediction Error Margin: ±368 units (PV), ±178 units (Wind)";
              "• Load shifting potential: 20% peak demand reduction";
              "• Diesel displacement: 330,000 liters/month";
              "   • Payback period: 24 months";
              "   • ROI: 117% over 3 years";
              "• Template for similar rural agricultural communities";
              "Generated for: Sample Community | Date: 2025-11-03 10:15" ]
      | _ => false
      end
  | _ => false
  end = true.
Proof. vm_compute. reflexivity. Qed.
